(** * Thinc example notebook [05_visualizing_models]: label and diagram

    A shallow embedding of the two functions of
    [examples/05_visualizing_models.ipynb], [get_label] and
    [visualize_model], together with the parts of Python, of
    [thinc.model.Model] and of [pydot] that they call.

    Python objects that the notebook only reads through references (the
    model and its layers) live in a heap; the locals of [visualize_model]
    (the [pydot.Dot] graph and the [nodes] dict) are threaded through the
    loop; exceptions are the left summand of the result. *)

From Stdlib Require Import ZArith NArith String Ascii List Lia.
From Stdlib Require Import DecimalString DecimalN DecimalZ.
From stdpp Require Import base option list gmap strings relations.

(** ** Python values and built-ins *)

Module Py.

(** Exceptions the modelled code can raise.  [NoObject] is the model's
    own: it stands for dereferencing an address where the heap holds no
    object, which a Python reference never does. *)
Inductive Exc : Type :=
| KeyError (key : string)
| ValueError (msg : string)
| IndexError
| NoObject (a : positive).

(** The two kinds of value that [get_label] interpolates: an [int]
    returned by [get_dim], or the [str] placeholder. *)
Inductive Val : Type :=
| VInt (z : Z)
| VStr (s : string).

(** [str(n)] for an [int]: decimal digits, a leading [-] when negative. *)
Definition str_int (z : Z) : string :=
  NilEmpty.string_of_int (Z.to_int z).

(** [str(n)] for a non-negative [int]. *)
Definition str_nat (n : N) : string :=
  NilEmpty.string_of_uint (N.to_uint n).

(** What an f-string replacement field [{v}] produces. *)
Definition format (v : Val) : string :=
  match v with
  | VInt z => str_int z
  | VStr s => s
  end.

(** [s.replace(old, new)] for a pattern [old] of one character, the
    only form the notebook uses: every occurrence is replaced, left to
    right.  A string is its sequence of UTF-8 bytes; the byte of an
    ASCII character occurs in it only as that character. *)
Fixpoint replace (old : ascii) (new : string) (s : string) : string :=
  match s with
  | EmptyString => EmptyString
  | String c rest =>
      if Ascii.eqb c old then new +:+ replace old new rest
      else String c (replace old new rest)
  end.

(** Truth value of an [Optional[bool]] in an [if]. *)
Definition truthy (b : option bool) : bool :=
  match b with
  | Some true => true
  | _ => false
  end.

(** [xs[k]] for an index [k >= 0]. *)
Definition index {A : Type} (xs : list A) (k : nat) : Exc + A :=
  match xs !! k with
  | Some x => inr x
  | None => inl IndexError
  end.

(** [d[k]] on a dict. *)
Definition getitem {A : Type} (d : gmap N A) (k : N) : Exc + A :=
  match d !! k with
  | Some x => inr x
  | None => inl (KeyError (str_nat k))
  end.

End Py.

(** ** thinc.model.Model, as far as the notebook reads it *)

Module Thinc.

(** Modelled from the spec: the class [thinc.model.Model] is not among
    the sources.  A layer has a name, a stable identifier, its own
    sequence of sub-layers, and named integer dimensions, each of which
    may be absent, registered but not yet known, or known.  thinc
    numbers its models from a global counter, so an identifier is a
    natural number; sub-layers are held by reference. *)
Record Model : Type := mkModel {
  name : string;
  id : N;
  layers : list positive;
  dims : gmap string (option Z)
}.

(** Modelled from the spec: [Model.has_dim], missing from the sources.
    [True] when the dimension is known, [None] when it is registered but
    unset, [False] when the layer has no such dimension. *)
Definition has_dim (m : Model) (dim : string) : option bool :=
  match dims m !! dim with
  | None => Some false
  | Some (Some _) => Some true
  | Some None => None
  end.

(** Modelled from the spec: [Model.get_dim], missing from the sources.
    The value of a known dimension; an error for any other. *)
Definition get_dim (m : Model) (dim : string) : Py.Exc + Z :=
  match dims m !! dim with
  | None => inl (Py.KeyError dim)
  | Some None => inl (Py.ValueError dim)
  | Some (Some v) => inr v
  end.

End Thinc.

(** ** pydot, as far as the notebook calls it

    pydot is an external library.  A graph keeps its node statements per
    name and its edge statements per pair of endpoint names, each group in
    insertion order and all of them numbered in one sequence; here both
    tables are the lists in sequence order.  The default attributes that
    pydot stores as the pseudo-statements [node [...]] and [edge [...]]
    are separate fields. *)

Module Pydot.

Definition Attrs : Type := list (string * string).

Record Node : Type := mkNode {
  node_name : string;
  node_attributes : Attrs
}.

Record Edge : Type := mkEdge {
  edge_points : string * string;
  edge_attributes : Attrs
}.

Record Dot : Type := mkDot {
  graph_attributes : Attrs;
  node_defaults : Attrs;
  edge_defaults : Attrs;
  nodes : list Node;
  edges : list Edge
}.

(** [pydot.Dot()] *)
Definition Dot_new : Dot := mkDot [] [] [] [] [].

(** [dot.set(key, value)] *)
Definition set (key value : string) (d : Dot) : Dot :=
  mkDot (graph_attributes d ++ [(key, value)]) (node_defaults d)
        (edge_defaults d) (nodes d) (edges d).

(** [dot.set_node_defaults(k=v, ...)] *)
Definition set_node_defaults (attrs : Attrs) (d : Dot) : Dot :=
  mkDot (graph_attributes d) (node_defaults d ++ attrs)
        (edge_defaults d) (nodes d) (edges d).

(** [dot.set_edge_defaults(k=v, ...)] *)
Definition set_edge_defaults (attrs : Attrs) (d : Dot) : Dot :=
  mkDot (graph_attributes d) (node_defaults d)
        (edge_defaults d ++ attrs) (nodes d) (edges d).

(** [pydot.Node(name, k=v, ...)] for an [int] name: the name becomes
    [str(name)], a numeral, which pydot keeps as it is. *)
Definition Node_new (name : N) (attrs : Attrs) : Node :=
  mkNode (Py.str_nat name) attrs.

(** [dot.add_node(node)]: one more node statement, also when the name
    is already in use. *)
Definition add_node (n : Node) (d : Dot) : Dot :=
  mkDot (graph_attributes d) (node_defaults d) (edge_defaults d)
        (nodes d ++ [n]) (edges d).

(** What a caller may pass for an endpoint: a name or a [Node]. *)
Inductive Endpoint : Type :=
| ByName (s : string)
| ByNode (n : Node).

(** [pydot.Edge(src, dst)]: a [Node] endpoint is replaced by its name. *)
Definition endpoint_name (p : Endpoint) : string :=
  match p with
  | ByName s => s
  | ByNode n => node_name n
  end.

Definition Edge_new (src dst : Endpoint) : Edge :=
  mkEdge (endpoint_name src, endpoint_name dst) [].

(** [dot.add_edge(edge)]: one more edge statement, filed under the pair
    of names [edge.get_source(), edge.get_destination()]. *)
Definition add_edge (e : Edge) (d : Dot) : Dot :=
  mkDot (graph_attributes d) (node_defaults d) (edge_defaults d)
        (nodes d) (edges d ++ [e]).

(** [dot.get_edge(src, dst)]: the edges filed under the key
    [(src, dst)].  The key is the pair of arguments as given: unlike
    [Edge] (and [del_edge]), [get_edge] does not replace a [Node] by its
    name, and a [Node] is equal to no string, so a key with a [Node] in
    it is under no entry of the table.  The graph of [Dot()] is a
    digraph, for which the reversed pair is not tried. *)
Definition get_edge (src dst : Endpoint) (d : Dot) : list Edge :=
  match src, dst with
  | ByName a, ByName b =>
      filter (fun e => edge_points e = (a, b)) (edges d)
  | _, _ => []
  end.

End Pydot.

(** ** The notebook's world: heap and display *)

Record World : Type := mkWorld {
  heap : gmap positive Thinc.Model;
  displayed : list Pydot.Dot
}.

(** A computation reads and writes the world and returns or raises. *)
Definition M (A : Type) : Type := World -> Py.Exc + (A * World).

Definition ret {A : Type} (x : A) : M A := fun w => inr (x, w).

Definition bind {A B : Type} (c : M A) (k : A -> M B) : M B :=
  fun w =>
    match c w with
    | inl e => inl e
    | inr (x, w') => k x w'
    end.

Definition lift {A : Type} (r : Py.Exc + A) : M A :=
  fun w =>
    match r with
    | inl e => inl e
    | inr x => inr (x, w)
    end.

#[global] Instance M_bind : MBind M := fun A B k c => bind c k.

(** Following a reference. *)
Definition deref (a : positive) : M Thinc.Model :=
  fun w =>
    match heap w !! a with
    | Some o => inr (o, w)
    | None => inl (Py.NoObject a)
    end.

(** Attribute reads and method calls on a referenced layer. *)
Definition attr_name (a : positive) : M string :=
  o ← deref a; ret (Thinc.name o).

Definition attr_id (a : positive) : M N :=
  o ← deref a; ret (Thinc.id o).

Definition attr_layers (a : positive) : M (list positive) :=
  o ← deref a; ret (Thinc.layers o).

Definition has_dim (a : positive) (dim : string) : M (option bool) :=
  o ← deref a; ret (Thinc.has_dim o dim).

Definition get_dim (a : positive) (dim : string) : M Z :=
  o ← deref a; lift (Thinc.get_dim o dim).

(** [display(SVG(dot.create_svg()))]: the image shown is rendered by
    Graphviz from the graph description; the display keeps the
    description. *)
Definition display (d : Pydot.Dot) : M unit :=
  fun w => inr (tt, mkWorld (heap w) (displayed w ++ [d])).

(** ** The notebook's functions *)

(** The conditional expression
    [layer.get_dim(dim) if layer.has_dim(dim) else "?"], which [get_label]
    evaluates for nO and for nI: the test first, then one branch. *)
Definition dim_or_placeholder (layer : positive) (dim : string) : M Py.Val :=
  known ← has_dim layer dim;
  if Py.truthy known
  then (v ← get_dim layer dim; ret (Py.VInt v))
  else ret (Py.VStr "?").

(** [[
def get_label(layer):
    layer_name = layer.name
    nO = layer.get_dim("nO") if layer.has_dim("nO") else "?"
    nI = layer.get_dim("nI") if layer.has_dim("nI") else "?"
    return f"{layer.name}|({nO}, {nI})".replace(">", "&gt;")
]] *)
Definition get_label (layer : positive) : M string :=
  layer_name ← attr_name layer;
  nO ← dim_or_placeholder layer "nO";
  nI ← dim_or_placeholder layer "nI";
  nm ← attr_name layer;
  ret (Py.replace ">" "&gt;"
         (nm +:+ "|(" +:+ Py.format nO +:+ ", " +:+ Py.format nI +:+ ")")).

(** [for i, x in enumerate(xs): body], with the loop's locals as [s]. *)
Fixpoint for_enumerate {A St : Type} (body : nat -> A -> St -> M St)
    (i : nat) (xs : list A) (s : St) : M St :=
  match xs with
  | [] => ret s
  | x :: rest => (s' ← body i x s; for_enumerate body (S i) rest s')
  end.

(** [[
def visualize_model(model):
    dot = pydot.Dot()
    dot.set("rankdir", "LR")
    dot.set_node_defaults(shape="record", fontname="arial", fontsize="10")
    dot.set_edge_defaults(arrowsize="0.7")
    nodes = {}
    for i, layer in enumerate(model.layers):
        label = get_label(layer)
        node = pydot.Node(layer.id, label=label)
        dot.add_node(node)
        nodes[layer.id] = node
        if i == 0:
            continue
        from_node = nodes[model.layers[i - 1].id]
        to_node = nodes[layer.id]
        if not dot.get_edge(from_node, to_node):
            dot.add_edge(pydot.Edge(from_node, to_node))
    display(SVG(dot.create_svg()))
]] *)
Definition Locals : Type := Pydot.Dot * gmap N Pydot.Node.

Definition loop_body (model : positive) (i : nat) (layer : positive)
    (s : Locals) : M Locals :=
  let '(dot, nodes) := s in
  label ← get_label layer;
  lid ← attr_id layer;
  let node := Pydot.Node_new lid [("label", label)] in
  let dot := Pydot.add_node node dot in
  key ← attr_id layer;
  let nodes := <[key := node]> nodes in
  if Nat.eqb i 0 then ret (dot, nodes)
  else
    ls ← attr_layers model;
    prev ← lift (Py.index ls (i - 1));
    pid ← attr_id prev;
    from_node ← lift (Py.getitem nodes pid);
    cid ← attr_id layer;
    to_node ← lift (Py.getitem nodes cid);
    match Pydot.get_edge (Pydot.ByNode from_node) (Pydot.ByNode to_node) dot with
    | [] =>
        ret (Pydot.add_edge
               (Pydot.Edge_new (Pydot.ByNode from_node) (Pydot.ByNode to_node))
               dot, nodes)
    | _ :: _ => ret (dot, nodes)
    end.

Definition initial_dot : Pydot.Dot :=
  Pydot.set_edge_defaults [("arrowsize", "0.7")]
    (Pydot.set_node_defaults
       [("shape", "record"); ("fontname", "arial"); ("fontsize", "10")]
       (Pydot.set "rankdir" "LR" Pydot.Dot_new)).

Definition visualize_model (model : positive) : M unit :=
  let dot := initial_dot in
  let nodes : gmap N Pydot.Node := ∅ in
  ls ← attr_layers model;
  s ← for_enumerate (loop_body model) 0 ls (dot, nodes);
  display (fst s).

(** ** What the functions compute

    The vocabulary of the statements below: the characters of a string,
    the label and the graph as functions of the layer objects read, and
    the relation between references and objects. *)

(** Whether the character [c] occurs in [s]. *)
Fixpoint occurs (c : ascii) (s : string) : bool :=
  match s with
  | EmptyString => false
  | String a rest => Ascii.eqb a c || occurs c rest
  end.

(** Decimal digits, and the strings made of them. *)
Definition is_digit (c : ascii) : bool :=
  (Nat.leb 48 (nat_of_ascii c)) && (Nat.leb (nat_of_ascii c) 57).

Fixpoint all_digits (s : string) : bool :=
  match s with
  | EmptyString => true
  | String a rest => is_digit a && all_digits rest
  end.

(** The value interpolated for a dimension, and the label, as functions
    of the layer object that [get_label] reads. *)
Definition dim_value (o : Thinc.Model) (dim : string) : Py.Val :=
  match Thinc.dims o !! dim with
  | Some (Some v) => Py.VInt v
  | _ => Py.VStr "?"
  end.

Definition label_of (o : Thinc.Model) : string :=
  Py.replace ">" "&gt;"
    (Thinc.name o +:+ "|(" +:+ Py.format (dim_value o "nO") +:+ ", "
       +:+ Py.format (dim_value o "nI") +:+ ")").

(** The label a node carries. *)
Definition node_label (n : Pydot.Node) : option string :=
  snd <$> head (filter (fun kv => fst kv = "label") (Pydot.node_attributes n)).

(** The node and the edge that an iteration adds, and the graph that a
    whole run builds, as functions of the layer objects of the pipeline. *)
Definition node_of (o : Thinc.Model) : Pydot.Node :=
  Pydot.Node_new (Thinc.id o) [("label", label_of o)].

Definition edge_of (a b : Thinc.Model) : Pydot.Edge :=
  Pydot.mkEdge (Py.str_nat (Thinc.id a), Py.str_nat (Thinc.id b)) [].

Fixpoint chain_edges (prev : Thinc.Model) (os : list Thinc.Model)
    : list Pydot.Edge :=
  match os with
  | [] => []
  | o :: rest => edge_of prev o :: chain_edges o rest
  end.

Definition edges_of (os : list Thinc.Model) : list Pydot.Edge :=
  match os with
  | [] => []
  | o :: rest => chain_edges o rest
  end.

Definition extend (d : Pydot.Dot) (ns : list Pydot.Node)
    (es : list Pydot.Edge) : Pydot.Dot :=
  Pydot.mkDot (Pydot.graph_attributes d) (Pydot.node_defaults d)
    (Pydot.edge_defaults d) (Pydot.nodes d ++ ns) (Pydot.edges d ++ es).

Definition diagram (os : list Thinc.Model) : Pydot.Dot :=
  extend initial_dot (map node_of os) (edges_of os).

(** The layer objects [os] behind the references [rs] of a world. *)
Definition objects (w : World) (rs : list positive)
    (os : list Thinc.Model) : Prop :=
  Forall2 (fun a o => heap w !! a = Some o) rs os.

(** [model] refers to a pipeline whose layers are the objects [os]. *)
Definition pipeline (w : World) (model : positive)
    (os : list Thinc.Model) : Prop :=
  exists mo, heap w !! model = Some mo /\ objects w (Thinc.layers mo) os.

(** Every entry of the [nodes] dict is a node named after its key. *)
Definition named (nodes : gmap N Pydot.Node) : Prop :=
  forall k n, nodes !! k = Some n -> Pydot.node_name n = Py.str_nat k.

(** The world after one more graph has been displayed. *)
Definition shown (w : World) (g : Pydot.Dot) : World :=
  mkWorld (heap w) (displayed w ++ [g]).

(** Reading a value off a computation, without its effect. *)
Definition value_of {A : Type} (c : M A) (w : World) : Py.Exc + A :=
  match c w with
  | inl e => inl e
  | inr (x, _) => inr x
  end.

(** Two layer objects that agree on what the notebook reads of them. *)
Definition same_layer (o1 o2 : Thinc.Model) : Prop :=
  Thinc.name o1 = Thinc.name o2
  /\ Thinc.id o1 = Thinc.id o2
  /\ Thinc.has_dim o1 "nO" = Thinc.has_dim o2 "nO"
  /\ Thinc.has_dim o1 "nI" = Thinc.has_dim o2 "nI"
  /\ (Thinc.has_dim o1 "nO" = Some true ->
      Thinc.get_dim o1 "nO" = Thinc.get_dim o2 "nO")
  /\ (Thinc.has_dim o1 "nI" = Some true ->
      Thinc.get_dim o1 "nI" = Thinc.get_dim o2 "nI").

(** ** Example worlds

    A two-layer pipeline before and after shape inference, a pipeline in
    which two layers are used twice, an empty and a one-layer pipeline;
    and a second world with other addresses, a display already in use
    and a layer object with a dimension that the notebook does not read. *)

Definition relu_unset : Thinc.Model :=
  Thinc.mkModel "relu" 2 [] (<["nO" := None]> (<["nI" := None]> ∅)).

Definition relu_set : Thinc.Model :=
  Thinc.mkModel "relu" 2 []
    (<["nO" := Some 32%Z]> (<["nI" := Some 16%Z]> ∅)).

Definition softmax : Thinc.Model :=
  Thinc.mkModel "softmax" 3 [] (<["nO" := Some 10%Z]> (<["nI" := Some 32%Z]> ∅)).

Definition chained : Thinc.Model :=
  Thinc.mkModel "relu>>softmax" 1 [2; 3]%positive ∅.

Definition repeated : Thinc.Model :=
  Thinc.mkModel "relu>>softmax>>relu>>softmax" 4 [2; 3; 2; 3]%positive ∅.

Definition empty_chain : Thinc.Model :=
  Thinc.mkModel "noop" 5 [] ∅.

Definition single : Thinc.Model :=
  Thinc.mkModel "relu" 6 [2]%positive ∅.

Definition heap_with (relu : Thinc.Model) : gmap positive Thinc.Model :=
  <[1%positive := chained]> (<[2%positive := relu]> (<[3%positive := softmax]>
    (<[4%positive := repeated]> (<[5%positive := empty_chain]>
       (<[6%positive := single]> ∅))))).

Definition world_before : World := mkWorld (heap_with relu_unset) [].

Definition world_after : World := mkWorld (heap_with relu_set) [].

Definition relu_wide : Thinc.Model :=
  Thinc.mkModel "relu" 2 [3]%positive
    (<["nO" := Some 32%Z]> (<["nI" := Some 16%Z]> (<["nP" := Some 3%Z]> ∅))).

Definition world_other : World :=
  mkWorld (<[7%positive := Thinc.mkModel "other" 9 [8; 9]%positive ∅]>
             (<[8%positive := relu_wide]> (<[9%positive := softmax]> ∅)))
          [initial_dot].

(** A further example: a pipeline object whose name already holds the
    escaped form of the chaining marker. *)
Definition chained_escaped : Thinc.Model :=
  Thinc.mkModel "relu&gt;&gt;softmax" 7 [2; 3]%positive ∅.

Definition world_escaped : World :=
  mkWorld (<[1%positive := chained_escaped]> ∅) [].

(** A pipeline with one layer put twice in a row. *)
Definition doubled : Thinc.Model :=
  Thinc.mkModel "relu>>relu" 8 [2; 2]%positive ∅.

Definition world_doubled : World :=
  mkWorld (<[1%positive := doubled]> (<[2%positive := relu_set]> ∅)) [].

(** ** Reading a graph

    An edge statement from the node named [a] to the node named [b], and
    the layers that agree on their identifiers. *)
Definition edge_rel (g : Pydot.Dot) (a b : string) : Prop :=
  exists e, e ∈ Pydot.edges g /\ Pydot.edge_points e = (a, b).

Definition same_id (o1 o2 : Thinc.Model) : Prop :=
  Thinc.id o1 = Thinc.id o2.

(** ** Characters of a string *)

Lemma occurs_cons c a s : occurs c (String a s) = Ascii.eqb a c || occurs c s.
Proof. reflexivity. Qed.

Lemma append_cons a (s t : string) : String a s +:+ t = String a (s +:+ t).
Proof. reflexivity. Qed.

Lemma occurs_app c s t : occurs c (s +:+ t) = occurs c s || occurs c t.
Proof.
  induction s as [|a s IH]; [reflexivity|].
  rewrite append_cons. simpl. rewrite IH. apply orb_assoc.
Qed.

Lemma append_assoc (s t u : string) : (s +:+ t) +:+ u = s +:+ t +:+ u.
Proof.
  induction s as [|a s IH]; [reflexivity|].
  rewrite !append_cons. f_equal. exact IH.
Qed.

Lemma replace_app old new s t :
  Py.replace old new (s +:+ t) = Py.replace old new s +:+ Py.replace old new t.
Proof.
  induction s as [|a s IH]; [reflexivity|].
  rewrite append_cons. simpl.
  destruct (Ascii.eqb a old); rewrite IH; [|reflexivity].
  symmetry. apply append_assoc.
Qed.

Lemma replace_absent old new s :
  occurs old s = false -> Py.replace old new s = s.
Proof.
  induction s as [|a s IH]; simpl; [reflexivity|].
  destruct (Ascii.eqb a old); simpl; [discriminate|].
  intros H. rewrite IH; auto.
Qed.

Lemma replace_removes old new s :
  occurs old new = false -> occurs old (Py.replace old new s) = false.
Proof.
  intros Hnew. induction s as [|a s IH]; simpl; [reflexivity|].
  destruct (Ascii.eqb a old) eqn:E.
  - rewrite occurs_app, Hnew. exact IH.
  - simpl. rewrite E. exact IH.
Qed.

Lemma string_of_uint_digits d : all_digits (NilEmpty.string_of_uint d) = true.
Proof. induction d; simpl; auto. Qed.

Lemma all_digits_occurs c s :
  is_digit c = false -> all_digits s = true -> occurs c s = false.
Proof.
  intros Hc. induction s as [|a s IH]; simpl; [reflexivity|].
  intros [Ha Hs]%andb_prop.
  rewrite (IH Hs), orb_false_r.
  destruct (Ascii.eqb_spec a c) as [->|]; [congruence|reflexivity].
Qed.

Lemma str_nat_occurs c n : is_digit c = false -> occurs c (Py.str_nat n) = false.
Proof.
  intros Hc. apply all_digits_occurs; [assumption|].
  apply string_of_uint_digits.
Qed.

Lemma str_int_occurs c z :
  is_digit c = false -> c <> "-"%char -> occurs c (Py.str_int z) = false.
Proof.
  intros Hc Hm. unfold Py.str_int.
  destruct (Z.to_int z) as [d|d]; unfold NilEmpty.string_of_int.
  - apply all_digits_occurs; [assumption | apply string_of_uint_digits].
  - rewrite occurs_cons.
    rewrite all_digits_occurs by (assumption || apply string_of_uint_digits).
    destruct (Ascii.eqb_spec "-"%char c); [congruence | reflexivity].
Qed.

Lemma str_nat_inj n m : Py.str_nat n = Py.str_nat m -> n = m.
Proof.
  unfold Py.str_nat. intros H.
  apply Unsigned.to_uint_inj.
  assert (Some (N.to_uint n) = Some (N.to_uint m)) as [= ->]; [|reflexivity].
  rewrite <- !NilEmpty.usu. congruence.
Qed.

(** ** Running the notebook's functions *)

Lemma bind_run {A B : Type} (c : M A) (k : A -> M B) w :
  (x ← c; k x) w = match c w with inl e => inl e | inr (x, w') => k x w' end.
Proof. reflexivity. Qed.

Lemma deref_run w a o : heap w !! a = Some o -> deref a w = inr (o, w).
Proof. intros H. unfold deref. now rewrite H. Qed.

Lemma attr_name_run w a o :
  heap w !! a = Some o -> attr_name a w = inr (Thinc.name o, w).
Proof. intros H. unfold attr_name. now rewrite bind_run, (deref_run _ _ _ H). Qed.

Lemma attr_id_run w a o :
  heap w !! a = Some o -> attr_id a w = inr (Thinc.id o, w).
Proof. intros H. unfold attr_id. now rewrite bind_run, (deref_run _ _ _ H). Qed.

Lemma attr_layers_run w a o :
  heap w !! a = Some o -> attr_layers a w = inr (Thinc.layers o, w).
Proof. intros H. unfold attr_layers. now rewrite bind_run, (deref_run _ _ _ H). Qed.

(** The guard of [get_label]: wherever [has_dim] is truthy, [get_dim]
    returns. *)
Lemma has_dim_get_dim o dim :
  Py.truthy (Thinc.has_dim o dim) = true ->
  exists v, Thinc.get_dim o dim = inr v /\ Thinc.dims o !! dim = Some (Some v).
Proof.
  unfold Thinc.has_dim, Thinc.get_dim.
  destruct (Thinc.dims o !! dim) as [[v|]|]; simpl; try discriminate.
  intros _. now exists v.
Qed.

Lemma dim_or_placeholder_run w a o dim :
  heap w !! a = Some o ->
  dim_or_placeholder a dim w = inr (dim_value o dim, w).
Proof.
  intros H. unfold dim_or_placeholder, has_dim, get_dim, dim_value.
  rewrite !bind_run, (deref_run _ _ _ H). unfold ret at 1.
  unfold Thinc.has_dim.
  destruct (Thinc.dims o !! dim) as [[v|]|] eqn:E; simpl; try reflexivity.
  rewrite !bind_run, (deref_run _ _ _ H).
  unfold Thinc.get_dim. now rewrite E.
Qed.

Lemma get_label_run w a o :
  heap w !! a = Some o -> get_label a w = inr (label_of o, w).
Proof.
  intros H. unfold get_label.
  rewrite bind_run, (attr_name_run _ _ _ H).
  rewrite bind_run, (dim_or_placeholder_run _ _ _ _ H).
  rewrite bind_run, (dim_or_placeholder_run _ _ _ _ H).
  rewrite bind_run, (attr_name_run _ _ _ H).
  reflexivity.
Qed.

Lemma named_insert nodes o :
  named nodes -> named (<[Thinc.id o := node_of o]> nodes).
Proof.
  intros Hn k n. rewrite lookup_insert.
  case_decide as E; [|apply Hn].
  intros [= <-]. now rewrite <- E.
Qed.

Lemma extend_nil d : extend d [] [] = d.
Proof. destruct d. unfold extend. simpl. now rewrite !app_nil_r. Qed.

Lemma extend_add_node d o ns es :
  extend (Pydot.add_node (node_of o) d) ns es = extend d (node_of o :: ns) es.
Proof. unfold extend, Pydot.add_node. simpl. now rewrite <- app_assoc. Qed.

Lemma extend_add_edge d e ns es :
  extend (Pydot.add_edge e d) ns es = extend d ns (e :: es).
Proof. unfold extend, Pydot.add_edge. simpl. now rewrite <- app_assoc. Qed.

(** [get_edge] called with [Node] objects finds nothing. *)
Lemma get_edge_by_node a b d :
  Pydot.get_edge (Pydot.ByNode a) (Pydot.ByNode b) d = [].
Proof. reflexivity. Qed.

(** One step of a computation that reads the object behind a reference
    known by [H]. *)
Ltac read H :=
  rewrite bind_run;
  first [ rewrite (get_label_run _ _ _ H)
        | rewrite (attr_id_run _ _ _ H)
        | rewrite (attr_layers_run _ _ _ H)
        | rewrite (attr_name_run _ _ _ H) ].

Section Loop.

Variables (w : World) (model : positive) (mo : Thinc.Model).
Hypothesis Hmodel : heap w !! model = Some mo.

(** The first iteration: a node, no edge. *)
Lemma loop_body_first layer o dot nodes :
  heap w !! layer = Some o ->
  loop_body model 0 layer (dot, nodes) w =
  inr ((Pydot.add_node (node_of o) dot, <[Thinc.id o := node_of o]> nodes), w).
Proof.
  intros H. unfold loop_body.
  read H. read H. read H. reflexivity.
Qed.

(** A later iteration: a node, and the edge from the previous layer. *)
Lemma loop_body_next i prev po layer o dot nodes :
  i <> 0 ->
  Thinc.layers mo !! (i - 1) = Some prev ->
  heap w !! prev = Some po ->
  heap w !! layer = Some o ->
  named nodes ->
  is_Some (nodes !! Thinc.id po) ->
  loop_body model i layer (dot, nodes) w =
  inr ((Pydot.add_edge (edge_of po o) (Pydot.add_node (node_of o) dot),
        <[Thinc.id o := node_of o]> nodes), w).
Proof.
  intros Hi Hprev Hpo Ho Hnamed [n0 Hn0]. unfold loop_body.
  read Ho. read Ho. read Ho.
  destruct (Nat.eqb_spec i 0) as [|_]; [contradiction|].
  read Hmodel.
  unfold Py.index. rewrite Hprev.
  rewrite bind_run. unfold lift at 1.
  read Hpo.
  fold (node_of o).
  assert (exists n, (<[Thinc.id o := node_of o]> nodes) !! Thinc.id po = Some n
            /\ Pydot.node_name n = Py.str_nat (Thinc.id po)) as (n & Hn & Hname).
  { destruct (decide (Thinc.id o = Thinc.id po)) as [E|E].
    - exists (node_of o). rewrite E at 1. rewrite lookup_insert_eq.
      split; [reflexivity|]. simpl. now rewrite E.
    - exists n0. rewrite lookup_insert_ne by assumption.
      split; [assumption|]. now apply Hnamed. }
  unfold Py.getitem. rewrite Hn.
  rewrite bind_run. unfold lift at 1.
  read Ho.
  rewrite lookup_insert_eq.
  rewrite bind_run. unfold lift at 1.
  rewrite get_edge_by_node.
  unfold Pydot.Edge_new, edge_of, ret. simpl. now rewrite Hname.
Qed.

(** The loop from position [length pre] on, where [prevo] is the object of
    the layer just before that position, if there is one. *)
Lemma loop_run suf os :
  objects w suf os ->
  forall pre prevo dot nodes,
    Thinc.layers mo = pre ++ suf ->
    named nodes ->
    match prevo with
    | None => pre = []
    | Some po => exists p, last pre = Some p /\ heap w !! p = Some po
                           /\ is_Some (nodes !! Thinc.id po)
    end ->
    exists nodes',
      for_enumerate (loop_body model) (length pre) suf (dot, nodes) w =
      inr ((extend dot (map node_of os)
              match prevo with
              | None => edges_of os
              | Some po => chain_edges po os
              end, nodes'), w).
Proof.
  intros Hobj.
  induction Hobj as [|a o suf os Ha Hobj IH]; intros pre prevo dot nodes Hl Hn Hp.
  - exists nodes. simpl. destruct prevo; now rewrite extend_nil.
  - assert (Thinc.layers mo = (pre ++ [a]) ++ suf) as Hl'
      by now rewrite <- app_assoc.
    assert (length (pre ++ [a]) = S (length pre)) as Hlen
      by (rewrite length_app; simpl; lia).
    assert (exists p, last (pre ++ [a]) = Some p /\ heap w !! p = Some o
              /\ is_Some ((<[Thinc.id o := node_of o]> nodes) !! Thinc.id o))
      as Hp'.
    { exists a. rewrite last_snoc, lookup_insert_eq. eauto. }
    specialize (IH (pre ++ [a]) (Some o)).
    rewrite Hlen in IH.
    cbn [for_enumerate]. rewrite bind_run.
    destruct prevo as [po|].
    + destruct Hp as (p & Hlast & Hpo & Hsome).
      apply last_Some in Hlast as [pre' ->].
      rewrite (loop_body_next _ p po a o dot nodes); try assumption.
      * destruct (IH (Pydot.add_edge (edge_of po o)
                        (Pydot.add_node (node_of o) dot))
                     (<[Thinc.id o := node_of o]> nodes) Hl'
                     (named_insert _ _ Hn) Hp') as [nodes' ->].
        exists nodes'. simpl.
        now rewrite extend_add_edge, extend_add_node.
      * rewrite length_app. simpl. lia.
      * rewrite Hl, length_app. simpl.
        replace (length pre' + 1 - 1) with (length pre') by lia.
        rewrite <- app_assoc. now apply list_lookup_middle.
    + subst pre. cbn [length] in *.
      rewrite (loop_body_first a o dot nodes Ha).
      destruct (IH (Pydot.add_node (node_of o) dot)
                   (<[Thinc.id o := node_of o]> nodes) Hl'
                   (named_insert _ _ Hn) Hp') as [nodes' ->].
      exists nodes'. simpl. now rewrite extend_add_node.
Qed.

End Loop.

(** A run of [visualize_model] on a pipeline returns, leaves the heap as
    it was and displays the diagram of the pipeline's layer objects. *)
Lemma visualize_model_run w model os :
  pipeline w model os ->
  visualize_model model w =
  inr (tt, mkWorld (heap w) (displayed w ++ [diagram os])).
Proof.
  intros (mo & Hm & Hobj). unfold visualize_model.
  read Hm.
  destruct (loop_run w model mo Hm _ _ Hobj [] None initial_dot ∅)
    as [nodes' Hrun]; [reflexivity | | reflexivity |].
  { intros k n. now rewrite lookup_empty. }
  simpl in Hrun. rewrite bind_run, Hrun. reflexivity.
Qed.

(** ** The label *)

Lemma dim_value_known o dim v :
  Thinc.get_dim o dim = inr v -> dim_value o dim = Py.VInt v.
Proof.
  unfold Thinc.get_dim, dim_value.
  destruct (Thinc.dims o !! dim) as [[u|]|]; congruence.
Qed.

Lemma dim_value_unknown o dim :
  Thinc.has_dim o dim <> Some true -> dim_value o dim = Py.VStr "?".
Proof.
  unfold Thinc.has_dim, dim_value.
  destruct (Thinc.dims o !! dim) as [[u|]|]; congruence.
Qed.

Lemma format_dim_value_no_gt o dim :
  occurs ">" (Py.format (dim_value o dim)) = false.
Proof.
  unfold dim_value.
  destruct (Thinc.dims o !! dim) as [[u|]|]; try reflexivity.
  simpl. now apply str_int_occurs.
Qed.

(** Only the name can hold a character to escape. *)
Lemma label_of_split o :
  label_of o =
  Py.replace ">" "&gt;" (Thinc.name o) +:+ "|("
    +:+ Py.format (dim_value o "nO") +:+ ", "
    +:+ Py.format (dim_value o "nI") +:+ ")".
Proof.
  unfold label_of. rewrite !replace_app.
  rewrite (replace_absent _ _ (Py.format (dim_value o "nO")))
    by apply format_dim_value_no_gt.
  rewrite (replace_absent _ _ (Py.format (dim_value o "nI")))
    by apply format_dim_value_no_gt.
  reflexivity.
Qed.

(** C1: [get_label] returns the text [name|(nO, nI)] run through
    [replace(">", "&gt;")], where each of nO and nI is the decimal numeral
    of the dimension when it is known and [?] when it is not.  Only the
    name part can change under the replacement, and no [>] is left in the
    label.  With both dimensions unknown the label is [name|(?, ?)], and
    with nO = 32 and nI = 16 it is [name|(32, 16)] (the name escaped; the
    name itself when it holds no [>]). *)
Theorem get_label_text w layer o :
  heap w !! layer = Some o ->
  exists lbl tO tI,
    get_label layer w = inr (lbl, w)
    /\ lbl = Py.replace ">" "&gt;"
               (Thinc.name o +:+ "|(" +:+ tO +:+ ", " +:+ tI +:+ ")")
    /\ lbl = Py.replace ">" "&gt;" (Thinc.name o)
               +:+ "|(" +:+ tO +:+ ", " +:+ tI +:+ ")"
    /\ (forall v, Thinc.get_dim o "nO" = inr v -> tO = Py.str_int v)
    /\ (Thinc.has_dim o "nO" <> Some true -> tO = "?")
    /\ (forall v, Thinc.get_dim o "nI" = inr v -> tI = Py.str_int v)
    /\ (Thinc.has_dim o "nI" <> Some true -> tI = "?")
    /\ occurs ">" lbl = false
    /\ (occurs ">" (Thinc.name o) = false ->
        lbl = Thinc.name o +:+ "|(" +:+ tO +:+ ", " +:+ tI +:+ ")")
    /\ (Thinc.has_dim o "nO" <> Some true ->
        Thinc.has_dim o "nI" <> Some true ->
        lbl = Py.replace ">" "&gt;" (Thinc.name o) +:+ "|(?, ?)")
    /\ (Thinc.get_dim o "nO" = inr 32%Z ->
        Thinc.get_dim o "nI" = inr 16%Z ->
        lbl = Py.replace ">" "&gt;" (Thinc.name o) +:+ "|(32, 16)").
Proof.
  intros H.
  exists (label_of o), (Py.format (dim_value o "nO")),
    (Py.format (dim_value o "nI")).
  split; [now apply get_label_run|].
  split; [reflexivity|].
  split; [apply label_of_split|].
  split; [intros v Hv; now rewrite (dim_value_known _ _ _ Hv)|].
  split; [intros Hu; now rewrite (dim_value_unknown _ _ Hu)|].
  split; [intros v Hv; now rewrite (dim_value_known _ _ _ Hv)|].
  split; [intros Hu; now rewrite (dim_value_unknown _ _ Hu)|].
  split; [now apply replace_removes|].
  split.
  { intros Hn. rewrite label_of_split. now rewrite (replace_absent _ _ _ Hn). }
  split.
  - intros HO HI. rewrite label_of_split.
    now rewrite (dim_value_unknown _ _ HO), (dim_value_unknown _ _ HI).
  - intros HO HI. rewrite label_of_split.
    now rewrite (dim_value_known _ _ _ HO), (dim_value_known _ _ _ HI).
Qed.

Lemma get_label_text_witness :
  exists lbl tO tI,
    get_label 2 world_after = inr (lbl, world_after)
    /\ lbl = Py.replace ">" "&gt;"
               (Thinc.name relu_set +:+ "|(" +:+ tO +:+ ", " +:+ tI +:+ ")")
    /\ lbl = Py.replace ">" "&gt;" (Thinc.name relu_set)
               +:+ "|(" +:+ tO +:+ ", " +:+ tI +:+ ")"
    /\ (forall v, Thinc.get_dim relu_set "nO" = inr v -> tO = Py.str_int v)
    /\ (Thinc.has_dim relu_set "nO" <> Some true -> tO = "?")
    /\ (forall v, Thinc.get_dim relu_set "nI" = inr v -> tI = Py.str_int v)
    /\ (Thinc.has_dim relu_set "nI" <> Some true -> tI = "?")
    /\ occurs ">" lbl = false
    /\ (occurs ">" (Thinc.name relu_set) = false ->
        lbl = Thinc.name relu_set +:+ "|(" +:+ tO +:+ ", " +:+ tI +:+ ")")
    /\ (Thinc.has_dim relu_set "nO" <> Some true ->
        Thinc.has_dim relu_set "nI" <> Some true ->
        lbl = Py.replace ">" "&gt;" (Thinc.name relu_set) +:+ "|(?, ?)")
    /\ (Thinc.get_dim relu_set "nO" = inr 32%Z ->
        Thinc.get_dim relu_set "nI" = inr 16%Z ->
        lbl = Py.replace ">" "&gt;" (Thinc.name relu_set) +:+ "|(32, 16)").
Proof. apply (get_label_text world_after 2 relu_set). reflexivity. Defined.

(** The two labels of the specification, on the example layer before and
    after shape inference, and a name that holds the chaining marker. *)
Example label_unknown :
  get_label 2 world_before = inr ("relu|(?, ?)", world_before).
Proof. reflexivity. Qed.

Example label_32_16 :
  get_label 2 world_after = inr ("relu|(32, 16)", world_after).
Proof. reflexivity. Qed.

Example label_escaped :
  get_label 1 world_after = inr ("relu&gt;&gt;softmax|(?, ?)", world_after).
Proof. reflexivity. Qed.

(** C5: [get_label] is total and pure.  On every layer object, whatever
    the state of its dimensions, it returns a string and leaves the world
    as it was.  [get_dim] returns wherever [has_dim] is truthy, and where
    [get_dim] would raise, the guard yields the placeholder instead of
    calling it. *)
Theorem get_label_total_pure w layer o :
  heap w !! layer = Some o ->
  (exists lbl, get_label layer w = inr (lbl, w))
  /\ (forall dim, Py.truthy (Thinc.has_dim o dim) = true ->
        exists v, Thinc.get_dim o dim = inr v)
  /\ (forall dim, exists v, dim_or_placeholder layer dim w = inr (v, w))
  /\ (forall dim e, Thinc.get_dim o dim = inl e ->
        dim_or_placeholder layer dim w = inr (Py.VStr "?", w)).
Proof.
  intros H. repeat split.
  - exists (label_of o). now apply get_label_run.
  - intros dim Ht. destruct (has_dim_get_dim _ _ Ht) as (v & Hv & _).
    now exists v.
  - intros dim. exists (dim_value o dim). now apply dim_or_placeholder_run.
  - intros dim e He. rewrite (dim_or_placeholder_run _ _ _ _ H).
    unfold Thinc.get_dim in He. unfold dim_value.
    destruct (Thinc.dims o !! dim) as [[u|]|]; [discriminate | reflexivity..].
Qed.

Lemma get_label_total_pure_witness :
  (exists lbl, get_label 2 world_before = inr (lbl, world_before))
  /\ (forall dim, Py.truthy (Thinc.has_dim relu_unset dim) = true ->
        exists v, Thinc.get_dim relu_unset dim = inr v)
  /\ (forall dim, exists v,
        dim_or_placeholder 2 dim world_before = inr (v, world_before))
  /\ (forall dim e, Thinc.get_dim relu_unset dim = inl e ->
        dim_or_placeholder 2 dim world_before
        = inr (Py.VStr "?", world_before)).
Proof. apply (get_label_total_pure world_before 2 relu_unset). reflexivity. Defined.

(** ** The diagram *)

Lemma diagram_nodes os : Pydot.nodes (diagram os) = map node_of os.
Proof. reflexivity. Qed.

Lemma diagram_edges os : Pydot.edges (diagram os) = edges_of os.
Proof. reflexivity. Qed.

Lemma chain_edges_length p os : length (chain_edges p os) = length os.
Proof.
  revert p. induction os as [|o os IH]; intros p; simpl; [reflexivity|].
  now rewrite IH.
Qed.

Lemma edges_of_length os : length (edges_of os) = length os - 1.
Proof.
  destruct os as [|o os]; simpl; [reflexivity|].
  rewrite chain_edges_length. lia.
Qed.

Lemma chain_edges_lookup p os k e :
  chain_edges p os !! k = Some e <->
  exists a b, (p :: os) !! k = Some a /\ os !! k = Some b /\ e = edge_of a b.
Proof.
  revert p k. induction os as [|o os IH]; intros p k; simpl.
  - split; [discriminate|]. intros (a & b & _ & Hb & _). discriminate.
  - destruct k as [|k]; simpl.
    + split.
      * intros [= <-]. now exists p, o.
      * intros (a & b & [= <-] & [= <-] & ->). reflexivity.
    + apply IH.
Qed.

Lemma edges_of_lookup os k e :
  edges_of os !! k = Some e <->
  exists a b, os !! k = Some a /\ os !! S k = Some b /\ e = edge_of a b.
Proof.
  destruct os as [|o os]; simpl.
  - split; [discriminate|]. intros (a & b & Ha & _). discriminate.
  - apply chain_edges_lookup.
Qed.

Lemma objects_lookup w rs os k a :
  objects w rs os -> rs !! k = Some a ->
  exists o, os !! k = Some o /\ heap w !! a = Some o.
Proof.
  intros Hobj. revert k. induction Hobj as [|a' o rs os Ha Hobj IH]; intros k.
  - discriminate.
  - destruct k as [|k]; simpl.
    + intros [= ->]. now exists o.
    + apply IH.
Qed.

Lemma objects_nodes w rs os :
  objects w rs os ->
  Forall2 (fun a n => exists o lbl,
             heap w !! a = Some o /\ get_label a w = inr (lbl, w)
             /\ n = Pydot.Node_new (Thinc.id o) [("label", lbl)])
    rs (map node_of os).
Proof.
  induction 1 as [|a o rs os Ha Hobj IH]; simpl; constructor; [|exact IH].
  exists o, (label_of o). split; [assumption|].
  split; [now apply get_label_run | reflexivity].
Qed.

(** C3: one run on a pipeline of N layers adds N node statements, the
    k-th of them named after the identifier of the k-th layer and labelled
    with what [get_label] returns for it, and at most N-1 edges (none for
    N = 0).  Nodes are counted as statements added: layers with the same
    identifier give statements with the same name. *)
Theorem visualize_model_counts w model mo os :
  heap w !! model = Some mo ->
  objects w (Thinc.layers mo) os ->
  exists g,
    visualize_model model w = inr (tt, shown w g)
    /\ length (Pydot.nodes g) = length (Thinc.layers mo)
    /\ Forall2 (fun a n => exists o lbl,
                  heap w !! a = Some o /\ get_label a w = inr (lbl, w)
                  /\ n = Pydot.Node_new (Thinc.id o) [("label", lbl)])
         (Thinc.layers mo) (Pydot.nodes g)
    /\ length (Pydot.edges g) <= length (Thinc.layers mo) - 1.
Proof.
  intros Hm Hobj. exists (diagram os).
  split; [apply visualize_model_run; now exists mo|].
  pose proof (Forall2_length _ _ _ Hobj) as Hlen.
  rewrite diagram_nodes, diagram_edges, edges_of_length, length_map.
  repeat split; [lia | now apply objects_nodes | lia].
Qed.

Lemma visualize_model_counts_witness :
  exists g,
    visualize_model 1 world_after = inr (tt, shown world_after g)
    /\ length (Pydot.nodes g) = length (Thinc.layers chained)
    /\ Forall2 (fun a n => exists o lbl,
                  heap world_after !! a = Some o
                  /\ get_label a world_after = inr (lbl, world_after)
                  /\ n = Pydot.Node_new (Thinc.id o) [("label", lbl)])
         (Thinc.layers chained) (Pydot.nodes g)
    /\ length (Pydot.edges g) <= length (Thinc.layers chained) - 1.
Proof.
  apply (visualize_model_counts world_after 1 chained [relu_set; softmax]).
  - reflexivity.
  - repeat constructor.
Defined.

(** C4: the k-th node of the graph is the node of the k-th layer, and the
    k-th edge goes from the node of layer k to the node of layer k+1, so
    every edge joins a consecutive ordered pair of the pipeline.  The
    iteration at position 0 adds no edge; the iteration at a position
    i >= 1 adds the edge from the node of layer i-1 to the node of the
    current layer. *)
Theorem visualize_model_edges_consecutive w model mo os :
  heap w !! model = Some mo ->
  objects w (Thinc.layers mo) os ->
  exists g,
    visualize_model model w = inr (tt, shown w g)
    /\ (forall k o, os !! k = Some o ->
          exists n, Pydot.nodes g !! k = Some n
                    /\ Pydot.node_name n = Py.str_nat (Thinc.id o))
    /\ (forall k e, Pydot.edges g !! k = Some e ->
          exists a b, os !! k = Some a /\ os !! S k = Some b
            /\ Pydot.edge_points e
               = (Py.str_nat (Thinc.id a), Py.str_nat (Thinc.id b)))
    /\ (forall layer o dot nodes,
          heap w !! layer = Some o ->
          exists s, loop_body model 0 layer (dot, nodes) w = inr (s, w)
                    /\ Pydot.edges (fst s) = Pydot.edges dot)
    /\ (forall i prev po layer o dot nodes,
          i <> 0 ->
          Thinc.layers mo !! (i - 1) = Some prev ->
          heap w !! prev = Some po ->
          heap w !! layer = Some o ->
          named nodes ->
          is_Some (nodes !! Thinc.id po) ->
          exists s, loop_body model i layer (dot, nodes) w = inr (s, w)
                    /\ Pydot.edges (fst s)
                       = Pydot.edges dot
                         ++ [Pydot.mkEdge (Py.str_nat (Thinc.id po),
                                           Py.str_nat (Thinc.id o)) []]).
Proof.
  intros Hm Hobj. exists (diagram os).
  split; [apply visualize_model_run; now exists mo|].
  split.
  { intros k o Hk. exists (node_of o). rewrite diagram_nodes.
    split; [|reflexivity]. now rewrite list_lookup_fmap, Hk. }
  split.
  { intros k e. rewrite diagram_edges, edges_of_lookup.
    intros (a & b & Ha & Hb & ->). now exists a, b. }
  split.
  - intros layer o dot nodes Ho. eexists. split.
    + apply (loop_body_first w model layer o dot nodes Ho).
    + reflexivity.
  - intros i prev po layer o dot nodes Hi Hprev Hpo Ho Hnamed Hsome.
    eexists. split.
    + apply (loop_body_next w model mo Hm i prev po layer o dot nodes);
        assumption.
    + reflexivity.
Qed.

Lemma visualize_model_edges_consecutive_witness :
  exists g,
    visualize_model 4 world_after = inr (tt, shown world_after g)
    /\ (forall k o, [relu_set; softmax; relu_set; softmax] !! k = Some o ->
          exists n, Pydot.nodes g !! k = Some n
                    /\ Pydot.node_name n = Py.str_nat (Thinc.id o))
    /\ (forall k e, Pydot.edges g !! k = Some e ->
          exists a b, [relu_set; softmax; relu_set; softmax] !! k = Some a
            /\ [relu_set; softmax; relu_set; softmax] !! S k = Some b
            /\ Pydot.edge_points e
               = (Py.str_nat (Thinc.id a), Py.str_nat (Thinc.id b)))
    /\ (forall layer o dot nodes,
          heap world_after !! layer = Some o ->
          exists s, loop_body 4 0 layer (dot, nodes) world_after
                    = inr (s, world_after)
                    /\ Pydot.edges (fst s) = Pydot.edges dot)
    /\ (forall i prev po layer o dot nodes,
          i <> 0 ->
          Thinc.layers repeated !! (i - 1) = Some prev ->
          heap world_after !! prev = Some po ->
          heap world_after !! layer = Some o ->
          named nodes ->
          is_Some (nodes !! Thinc.id po) ->
          exists s, loop_body 4 i layer (dot, nodes) world_after
                    = inr (s, world_after)
                    /\ Pydot.edges (fst s)
                       = Pydot.edges dot
                         ++ [Pydot.mkEdge (Py.str_nat (Thinc.id po),
                                           Py.str_nat (Thinc.id o)) []]).
Proof.
  apply (visualize_model_edges_consecutive world_after 4 repeated
           [relu_set; softmax; relu_set; softmax]).
  - reflexivity.
  - repeat constructor.
Defined.

(** C6: a pipeline of at most one layer is drawn without an error and
    without an edge: no node for an empty pipeline, one node for a
    pipeline of one layer. *)
Theorem visualize_model_short w model mo os :
  heap w !! model = Some mo ->
  objects w (Thinc.layers mo) os ->
  length (Thinc.layers mo) <= 1 ->
  exists g,
    visualize_model model w = inr (tt, shown w g)
    /\ length (Pydot.nodes g) = length (Thinc.layers mo)
    /\ (Thinc.layers mo = [] -> Pydot.nodes g = [])
    /\ Pydot.edges g = [].
Proof.
  intros Hm Hobj Hlen. exists (diagram os).
  split; [apply visualize_model_run; now exists mo|].
  pose proof (Forall2_length _ _ _ Hobj) as Hlen'.
  rewrite diagram_nodes, diagram_edges, length_map.
  split; [lia|]. split.
  - intros E. rewrite E in Hlen'. now destruct os.
  - destruct os as [|o [|o' os]]; simpl in *; [reflexivity.. | lia].
Qed.

Lemma visualize_model_short_witness :
  exists g,
    visualize_model 6 world_before = inr (tt, shown world_before g)
    /\ length (Pydot.nodes g) = length (Thinc.layers single)
    /\ (Thinc.layers single = [] -> Pydot.nodes g = [])
    /\ Pydot.edges g = [].
Proof.
  apply (visualize_model_short world_before 6 single [relu_unset]).
  - reflexivity.
  - repeat constructor.
  - simpl. lia.
Defined.

Example visualize_model_empty :
  visualize_model 5 world_before = inr (tt, shown world_before initial_dot)
  /\ Pydot.nodes initial_dot = [] /\ Pydot.edges initial_dot = [].
Proof. repeat split. Qed.

Example visualize_model_single :
  exists g, visualize_model 6 world_before = inr (tt, shown world_before g)
            /\ length (Pydot.nodes g) = 1 /\ Pydot.edges g = [].
Proof. eexists. repeat split. Qed.

(** C7: the labels of a run are those of the world it runs in.  In a run
    after shape inference the node of a layer carries the decimal numeral
    of each dimension that [get_dim] now returns, where a run before
    inference, on a layer whose dimensions were not known, carried [?];
    no numeral holds a [?].  The label that [get_label] returns is the
    same for any two layer objects with the same name and the same state
    of the dimensions nO and nI. *)
Theorem visualize_model_rerun w w' model os os' :
  pipeline w model os ->
  pipeline w' model os' ->
  exists g g',
    visualize_model model w = inr (tt, shown w g)
    /\ visualize_model model w' = inr (tt, shown w' g')
    /\ (forall k o, os !! k = Some o ->
          Thinc.has_dim o "nO" <> Some true ->
          Thinc.has_dim o "nI" <> Some true ->
          exists n, Pydot.nodes g !! k = Some n
            /\ node_label n
               = Some (Py.replace ">" "&gt;" (Thinc.name o) +:+ "|(?, ?)"))
    /\ (forall k o', os' !! k = Some o' ->
          exists n' tO tI, Pydot.nodes g' !! k = Some n'
            /\ node_label n'
               = Some (Py.replace ">" "&gt;" (Thinc.name o')
                         +:+ "|(" +:+ tO +:+ ", " +:+ tI +:+ ")")
            /\ (forall v, Thinc.get_dim o' "nO" = inr v ->
                  tO = Py.str_int v /\ occurs "?" tO = false)
            /\ (forall v, Thinc.get_dim o' "nI" = inr v ->
                  tI = Py.str_int v /\ occurs "?" tI = false))
    /\ (forall w1 w2 a1 a2 o1 o2,
          heap w1 !! a1 = Some o1 -> heap w2 !! a2 = Some o2 ->
          Thinc.name o1 = Thinc.name o2 ->
          Thinc.get_dim o1 "nO" = Thinc.get_dim o2 "nO" ->
          Thinc.get_dim o1 "nI" = Thinc.get_dim o2 "nI" ->
          value_of (get_label a1) w1 = value_of (get_label a2) w2).
Proof.
  intros Hp Hp'. exists (diagram os), (diagram os').
  split; [now apply visualize_model_run|].
  split; [now apply visualize_model_run|].
  split.
  { intros k o Hk HO HI. exists (node_of o).
    rewrite diagram_nodes, list_lookup_fmap, Hk.
    split; [reflexivity|]. unfold node_label. simpl.
    rewrite label_of_split.
    now rewrite (dim_value_unknown _ _ HO), (dim_value_unknown _ _ HI). }
  split.
  { intros k o' Hk.
    exists (node_of o'), (Py.format (dim_value o' "nO")),
      (Py.format (dim_value o' "nI")).
    rewrite diagram_nodes, list_lookup_fmap, Hk.
    split; [reflexivity|].
    split; [unfold node_label; simpl; now rewrite label_of_split|].
    split; intros v Hv; rewrite (dim_value_known _ _ _ Hv); simpl;
      (split; [reflexivity | now apply str_int_occurs]). }
  intros w1 w2 a1 a2 o1 o2 H1 H2 Hname HO HI.
  unfold value_of.
  rewrite (get_label_run _ _ _ H1), (get_label_run _ _ _ H2).
  f_equal. unfold label_of, dim_value. rewrite Hname.
  unfold Thinc.get_dim in HO, HI.
  destruct (Thinc.dims o1 !! "nO") as [[u1|]|],
           (Thinc.dims o2 !! "nO") as [[u2|]|]; try discriminate;
  destruct (Thinc.dims o1 !! "nI") as [[v1|]|],
           (Thinc.dims o2 !! "nI") as [[v2|]|]; try discriminate;
  congruence.
Qed.

Lemma visualize_model_rerun_witness :
  exists g g',
    visualize_model 1 world_before = inr (tt, shown world_before g)
    /\ visualize_model 1 world_after = inr (tt, shown world_after g')
    /\ (forall k o, [relu_unset; softmax] !! k = Some o ->
          Thinc.has_dim o "nO" <> Some true ->
          Thinc.has_dim o "nI" <> Some true ->
          exists n, Pydot.nodes g !! k = Some n
            /\ node_label n
               = Some (Py.replace ">" "&gt;" (Thinc.name o) +:+ "|(?, ?)"))
    /\ (forall k o', [relu_set; softmax] !! k = Some o' ->
          exists n' tO tI, Pydot.nodes g' !! k = Some n'
            /\ node_label n'
               = Some (Py.replace ">" "&gt;" (Thinc.name o')
                         +:+ "|(" +:+ tO +:+ ", " +:+ tI +:+ ")")
            /\ (forall v, Thinc.get_dim o' "nO" = inr v ->
                  tO = Py.str_int v /\ occurs "?" tO = false)
            /\ (forall v, Thinc.get_dim o' "nI" = inr v ->
                  tI = Py.str_int v /\ occurs "?" tI = false))
    /\ (forall w1 w2 a1 a2 o1 o2,
          heap w1 !! a1 = Some o1 -> heap w2 !! a2 = Some o2 ->
          Thinc.name o1 = Thinc.name o2 ->
          Thinc.get_dim o1 "nO" = Thinc.get_dim o2 "nO" ->
          Thinc.get_dim o1 "nI" = Thinc.get_dim o2 "nI" ->
          value_of (get_label a1) w1 = value_of (get_label a2) w2).
Proof.
  apply (visualize_model_rerun world_before world_after 1
           [relu_unset; softmax] [relu_set; softmax]).
  - exists chained. split; [reflexivity | repeat constructor].
  - exists chained. split; [reflexivity | repeat constructor].
Defined.

(** The example of the notebook in small: the labels of the two runs. *)
Example rerun_labels :
  (exists g, visualize_model 1 world_before = inr (tt, shown world_before g)
     /\ node_label <$> Pydot.nodes g
        = [Some "relu|(?, ?)"; Some "softmax|(10, 32)"])
  /\ (exists g, visualize_model 1 world_after = inr (tt, shown world_after g)
        /\ node_label <$> Pydot.nodes g
           = [Some "relu|(32, 16)"; Some "softmax|(10, 32)"]).
Proof. split; eexists; split; reflexivity. Qed.

Lemma deref_shown w g a : value_of (deref a) (shown w g) = value_of (deref a) w.
Proof. unfold value_of, deref. simpl. now destruct (heap w !! a). Qed.

Lemma value_of_bind_deref {A : Type} (k : Thinc.Model -> Py.Exc + A) w a :
  value_of (o ← deref a; lift (k o)) w =
  match heap w !! a with
  | Some o => k o
  | None => inl (Py.NoObject a)
  end.
Proof.
  unfold value_of. rewrite bind_run. unfold deref, lift.
  destruct (heap w !! a) as [o|]; [|reflexivity]. now destruct (k o).
Qed.

(** C8: a run of [visualize_model] changes nothing but the display.  The
    heap is the one before the call, so the pipeline still has the same
    sequence of layers, and the name, the identifier, the layers,
    [has_dim] and [get_dim] of every object read as before.  [get_label]
    leaves the whole world as it was. *)
Theorem visualize_model_frame w model os :
  pipeline w model os ->
  exists w',
    visualize_model model w = inr (tt, w')
    /\ heap w' = heap w
    /\ pipeline w' model os
    /\ (forall a dim,
          value_of (attr_name a) w' = value_of (attr_name a) w
          /\ value_of (attr_id a) w' = value_of (attr_id a) w
          /\ value_of (attr_layers a) w' = value_of (attr_layers a) w
          /\ value_of (has_dim a dim) w' = value_of (has_dim a dim) w
          /\ value_of (get_dim a dim) w' = value_of (get_dim a dim) w)
    /\ (forall layer o, heap w !! layer = Some o ->
          exists lbl, get_label layer w = inr (lbl, w)).
Proof.
  intros Hp. exists (shown w (diagram os)).
  split; [now apply visualize_model_run|].
  split; [reflexivity|].
  split; [exact Hp|].
  split.
  - intros a dim.
    unfold attr_name, attr_id, attr_layers, has_dim, get_dim.
    change (@ret) with (fun A (x : A) => lift (inr x)).
    rewrite !value_of_bind_deref. repeat split.
  - intros layer o Ho. exists (label_of o). now apply get_label_run.
Qed.

Lemma visualize_model_frame_witness :
  exists w',
    visualize_model 1 world_after = inr (tt, w')
    /\ heap w' = heap world_after
    /\ pipeline w' 1 [relu_set; softmax]
    /\ (forall a dim,
          value_of (attr_name a) w' = value_of (attr_name a) world_after
          /\ value_of (attr_id a) w' = value_of (attr_id a) world_after
          /\ value_of (attr_layers a) w' = value_of (attr_layers a) world_after
          /\ value_of (has_dim a dim) w' = value_of (has_dim a dim) world_after
          /\ value_of (get_dim a dim) w' = value_of (get_dim a dim) world_after)
    /\ (forall layer o, heap world_after !! layer = Some o ->
          exists lbl, get_label layer world_after = inr (lbl, world_after)).
Proof.
  apply (visualize_model_frame world_after 1 [relu_set; softmax]).
  exists chained. split; [reflexivity | repeat constructor].
Defined.

Lemma same_layer_dim_value o1 o2 dim :
  Thinc.has_dim o1 dim = Thinc.has_dim o2 dim ->
  (Thinc.has_dim o1 dim = Some true ->
   Thinc.get_dim o1 dim = Thinc.get_dim o2 dim) ->
  dim_value o1 dim = dim_value o2 dim.
Proof.
  unfold Thinc.has_dim, Thinc.get_dim, dim_value.
  destruct (Thinc.dims o1 !! dim) as [[u1|]|],
           (Thinc.dims o2 !! dim) as [[u2|]|];
    try discriminate; try reflexivity.
  intros _ H. specialize (H eq_refl). congruence.
Qed.

Lemma same_layer_node o1 o2 : same_layer o1 o2 -> node_of o1 = node_of o2.
Proof.
  intros (Hn & Hi & HhO & HhI & HO & HI).
  unfold node_of, label_of.
  now rewrite Hn, Hi, (same_layer_dim_value o1 o2 "nO" HhO HO),
    (same_layer_dim_value o1 o2 "nI" HhI HI).
Qed.

Lemma same_layer_edge a1 a2 b1 b2 :
  same_layer a1 a2 -> same_layer b1 b2 -> edge_of a1 b1 = edge_of a2 b2.
Proof.
  intros (_ & Ha & _) (_ & Hb & _). unfold edge_of. now rewrite Ha, Hb.
Qed.

Lemma same_layer_chain p1 p2 os1 os2 :
  same_layer p1 p2 -> Forall2 same_layer os1 os2 ->
  chain_edges p1 os1 = chain_edges p2 os2.
Proof.
  intros Hp H. revert p1 p2 Hp.
  induction H as [|o1 o2 os1 os2 Ho H IH]; intros p1 p2 Hp; simpl.
  - reflexivity.
  - now rewrite (same_layer_edge _ _ _ _ Hp Ho), (IH _ _ Ho).
Qed.

Lemma same_layer_diagram os1 os2 :
  Forall2 same_layer os1 os2 -> diagram os1 = diagram os2.
Proof.
  intros H. unfold diagram. f_equal.
  - induction H as [|o1 o2 os1 os2 Ho H IH]; simpl; [reflexivity|].
    now rewrite (same_layer_node _ _ Ho), IH.
  - destruct H as [|o1 o2 os1 os2 Ho H]; simpl; [reflexivity|].
    now apply same_layer_chain.
Qed.

(** C9: the graph is a function of what is read of the layers.  Two runs,
    in any two worlds and whatever was displayed before, on pipelines
    whose layers agree position by position on name, identifier and the
    state of nO and nI, display the same graph: same node statements with
    the same labels, same edges, same attributes. *)
Theorem visualize_model_deterministic w1 w2 model1 model2 os1 os2 :
  pipeline w1 model1 os1 ->
  pipeline w2 model2 os2 ->
  Forall2 same_layer os1 os2 ->
  exists g,
    visualize_model model1 w1 = inr (tt, shown w1 g)
    /\ visualize_model model2 w2 = inr (tt, shown w2 g)
    /\ (_ ← visualize_model model1; visualize_model model1) w1
       = inr (tt, shown (shown w1 g) g).
Proof.
  intros H1 H2 Hsame. exists (diagram os1). split; [|split].
  - now apply visualize_model_run.
  - rewrite (same_layer_diagram _ _ Hsame). now apply visualize_model_run.
  - rewrite bind_run, (visualize_model_run _ _ _ H1).
    now apply visualize_model_run.
Qed.

Lemma visualize_model_deterministic_witness :
  exists g,
    visualize_model 1 world_after = inr (tt, shown world_after g)
    /\ visualize_model 7 world_other = inr (tt, shown world_other g)
    /\ (_ ← visualize_model 1; visualize_model 1) world_after
       = inr (tt, shown (shown world_after g) g).
Proof.
  apply (visualize_model_deterministic world_after world_other 1 7
           [relu_set; softmax] [relu_wide; softmax]).
  - exists chained. split; [reflexivity | repeat constructor].
  - eexists. split; [reflexivity | repeat constructor].
  - repeat constructor.
Defined.

Lemma chain_edges_dst p os :
  (fun e => snd (Pydot.edge_points e)) <$> chain_edges p os
  = (fun o => Py.str_nat (Thinc.id o)) <$> os.
Proof.
  revert p. induction os as [|o os IH]; intros p; simpl; [reflexivity|].
  now rewrite IH.
Qed.

Lemma chain_edges_NoDup p os :
  NoDup (Thinc.id <$> os) ->
  NoDup (Pydot.edge_points <$> chain_edges p os).
Proof.
  intros Hnd.
  apply (NoDup_fmap_1 snd). rewrite <- list_fmap_compose.
  change (snd ∘ Pydot.edge_points) with (fun e => snd (Pydot.edge_points e)).
  rewrite chain_edges_dst.
  change (fun o => Py.str_nat (Thinc.id o)) with (Py.str_nat ∘ Thinc.id).
  rewrite list_fmap_compose.
  apply NoDup_fmap_2; [|assumption].
  intros n m. apply str_nat_inj.
Qed.

(** C10: on a pipeline of N >= 1 layers with pairwise distinct
    identifiers, a run adds exactly N-1 edges: the k-th edge joins the
    nodes of the layers k and k+1, and no two edges have the same pair of
    endpoints. *)
Theorem visualize_model_distinct_ids w model os :
  pipeline w model os ->
  1 <= length os ->
  NoDup (Thinc.id <$> os) ->
  exists g,
    visualize_model model w = inr (tt, shown w g)
    /\ length (Pydot.edges g) = length os - 1
    /\ (forall k a b, os !! k = Some a -> os !! S k = Some b ->
          Pydot.edges g !! k
          = Some (Pydot.mkEdge (Py.str_nat (Thinc.id a),
                                Py.str_nat (Thinc.id b)) []))
    /\ NoDup (Pydot.edge_points <$> Pydot.edges g).
Proof.
  intros Hp Hlen Hnd. exists (diagram os).
  split; [now apply visualize_model_run|].
  rewrite diagram_edges.
  split; [apply edges_of_length|].
  split.
  - intros k a b Ha Hb. apply edges_of_lookup. now exists a, b.
  - destruct os as [|o os]; simpl; [constructor|].
    apply chain_edges_NoDup. simpl in Hnd. now apply NoDup_cons in Hnd.
Qed.

Lemma visualize_model_distinct_ids_witness :
  exists g,
    visualize_model 1 world_after = inr (tt, shown world_after g)
    /\ length (Pydot.edges g) = length [relu_set; softmax] - 1
    /\ (forall k a b, [relu_set; softmax] !! k = Some a ->
          [relu_set; softmax] !! S k = Some b ->
          Pydot.edges g !! k
          = Some (Pydot.mkEdge (Py.str_nat (Thinc.id a),
                                Py.str_nat (Thinc.id b)) []))
    /\ NoDup (Pydot.edge_points <$> Pydot.edges g).
Proof.
  apply (visualize_model_distinct_ids world_after 1 [relu_set; softmax]).
  - exists chained. split; [reflexivity | repeat constructor].
  - simpl. lia.
  - apply (bool_decide_unpack _). reflexivity.
Defined.

(** ** The guard against duplicate edges *)

(** Filed under names, an edge is found under its names and not under
    the [Node] objects it was made from. *)
Lemma get_edge_by_name a b d :
  Pydot.get_edge (Pydot.ByName (Pydot.node_name a))
    (Pydot.ByName (Pydot.node_name b))
    (Pydot.add_edge (Pydot.Edge_new (Pydot.ByNode a) (Pydot.ByNode b)) d)
  <> [].
Proof.
  unfold Pydot.get_edge, Pydot.add_edge, Pydot.Edge_new.
  cbn [Pydot.edges Pydot.endpoint_name].
  rewrite filter_app, filter_cons_True by reflexivity.
  intros H. now apply app_eq_nil in H as [_ ?].
Qed.

(** Whatever the pipeline, the guard of the loop lets every edge through:
    a run adds an edge at each position after the first. *)
Lemma visualize_model_edge_count w model os :
  pipeline w model os ->
  exists g, visualize_model model w = inr (tt, shown w g)
            /\ length (Pydot.edges g) = length os - 1.
Proof.
  intros Hp. exists (diagram os).
  split; [now apply visualize_model_run|].
  now rewrite diagram_edges, edges_of_length.
Qed.

(** C2, on the pipeline [relu >> softmax >> relu >> softmax] whose layers
    are two objects used twice: the graph displayed has the edge from
    node 2 to node 3 twice.  [get_edge] is asked with the [Node] objects,
    finds no edge, and the edge is added again. *)
Theorem visualize_model_repeated_pair :
  exists g,
    visualize_model 4 world_after = inr (tt, shown world_after g)
    /\ Pydot.edge_points <$> Pydot.edges g
       = [("2", "3"); ("3", "2"); ("2", "3")]
    /\ ~ NoDup (Pydot.edge_points <$> Pydot.edges g).
Proof.
  eexists. split; [reflexivity|]. split; [reflexivity|].
  simpl. intros H. apply NoDup_cons in H as [Hin _].
  apply Hin. right. left.
Qed.

(** ** Further properties of the label *)

Lemma occurs_replace_other c old new s :
  c <> old -> occurs c s = true -> occurs c (Py.replace old new s) = true.
Proof.
  intros Hc. induction s as [|a s IH]; [discriminate|].
  rewrite occurs_cons. simpl.
  destruct (Ascii.eqb_spec a old) as [->|Hne].
  - destruct (Ascii.eqb_spec old c) as [E|_]; [now subst|].
    simpl. intros H. rewrite occurs_app, (IH H). apply orb_true_r.
  - rewrite occurs_cons.
    destruct (Ascii.eqb a c); simpl; [reflexivity | exact IH].
Qed.

Lemma replace_idempotent old new s :
  occurs old new = false ->
  Py.replace old new (Py.replace old new s) = Py.replace old new s.
Proof. intros H. apply replace_absent. now apply replace_removes. Qed.

Lemma dim_value_get_dim o1 o2 dim :
  Thinc.get_dim o1 dim = Thinc.get_dim o2 dim ->
  dim_value o1 dim = dim_value o2 dim.
Proof.
  unfold Thinc.get_dim, dim_value.
  destruct (Thinc.dims o1 !! dim) as [[u1|]|],
           (Thinc.dims o2 !! dim) as [[u2|]|];
    try discriminate; try reflexivity.
  congruence.
Qed.

(** X1: only [>] is escaped.  Every other character of the layer's name
    is still in the label: a [<], [{], [}] or [|] of a name reaches the
    record label as it is. *)
Theorem get_label_keeps_other_characters w layer o :
  heap w !! layer = Some o ->
  exists lbl,
    get_label layer w = inr (lbl, w)
    /\ forall c, c <> ">"%char ->
         occurs c (Thinc.name o) = true -> occurs c lbl = true.
Proof.
  intros H. exists (label_of o). split; [now apply get_label_run|].
  intros c Hc Hocc. rewrite label_of_split, occurs_app.
  now rewrite (occurs_replace_other _ _ _ _ Hc Hocc).
Qed.

Lemma get_label_keeps_other_characters_witness :
  exists lbl,
    get_label 1 world_after = inr (lbl, world_after)
    /\ forall c, c <> ">"%char ->
         occurs c (Thinc.name chained) = true -> occurs c lbl = true.
Proof.
  apply (get_label_keeps_other_characters world_after 1 chained).
  reflexivity.
Defined.

(** X2: escaping does not tell a name with [>] from a name that already
    holds [&gt;] in its place.  A layer whose name is the escaped form of
    another layer's name, with the same state of nO and nI, gets the same
    label. *)
Theorem get_label_escaped_name w1 w2 a1 a2 o1 o2 :
  heap w1 !! a1 = Some o1 ->
  heap w2 !! a2 = Some o2 ->
  Thinc.name o2 = Py.replace ">" "&gt;" (Thinc.name o1) ->
  Thinc.get_dim o1 "nO" = Thinc.get_dim o2 "nO" ->
  Thinc.get_dim o1 "nI" = Thinc.get_dim o2 "nI" ->
  exists lbl,
    get_label a1 w1 = inr (lbl, w1) /\ get_label a2 w2 = inr (lbl, w2).
Proof.
  intros H1 H2 Hname HO HI. exists (label_of o1).
  split; [now apply get_label_run|].
  rewrite (get_label_run _ _ _ H2). do 2 f_equal.
  rewrite !label_of_split, Hname, replace_idempotent by reflexivity.
  now rewrite (dim_value_get_dim _ _ _ HO), (dim_value_get_dim _ _ _ HI).
Qed.

Lemma get_label_escaped_name_witness :
  exists lbl,
    get_label 1 world_after = inr (lbl, world_after)
    /\ get_label 1 world_escaped = inr (lbl, world_escaped).
Proof.
  apply (get_label_escaped_name world_after world_escaped 1 1
           chained chained_escaped); reflexivity.
Defined.

(** ** Further properties of the diagram *)

Lemma diagram_node_names os :
  Pydot.node_name <$> Pydot.nodes (diagram os)
  = (fun o => Py.str_nat (Thinc.id o)) <$> os.
Proof.
  rewrite diagram_nodes.
  induction os as [|o os IH]; [reflexivity|].
  cbn. f_equal. exact IH.
Qed.

Lemma diagram_node_lookup os k o :
  os !! k = Some o -> Pydot.nodes (diagram os) !! k = Some (node_of o).
Proof. intros H. now rewrite diagram_nodes, list_lookup_fmap, H. Qed.

Lemma ids_lookup_inj os j k a b :
  NoDup (Thinc.id <$> os) ->
  os !! j = Some a -> os !! k = Some b ->
  Py.str_nat (Thinc.id a) = Py.str_nat (Thinc.id b) -> j = k.
Proof.
  intros Hnd Ha Hb E%str_nat_inj.
  apply (NoDup_lookup (Thinc.id <$> os) j k (Thinc.id a) Hnd).
  - now rewrite list_lookup_fmap, Ha.
  - now rewrite list_lookup_fmap, Hb, E.
Qed.

Lemma diagram_edge_elem os e :
  e ∈ Pydot.edges (diagram os) ->
  exists k a b, os !! k = Some a /\ os !! S k = Some b /\ e = edge_of a b.
Proof.
  rewrite diagram_edges. intros [k Hk]%list_elem_of_lookup.
  exists k. now apply edges_of_lookup.
Qed.

(** X3: whatever the identifiers, a run adds one edge at every position
    after the first: the graph of N >= 1 layers has exactly N-1 edges (and
    that of no layer has none), the k-th from layer k to layer k+1, also
    when the same pair of identifiers has an edge already. *)
Theorem visualize_model_edges_exact w model os :
  pipeline w model os ->
  exists g,
    visualize_model model w = inr (tt, shown w g)
    /\ length (Pydot.edges g) = length os - 1
    /\ (forall k a b, os !! k = Some a -> os !! S k = Some b ->
          Pydot.edges g !! k
          = Some (Pydot.mkEdge (Py.str_nat (Thinc.id a),
                                Py.str_nat (Thinc.id b)) [])).
Proof.
  intros Hp. exists (diagram os).
  split; [now apply visualize_model_run|].
  rewrite diagram_edges. split; [apply edges_of_length|].
  intros k a b Ha Hb. apply edges_of_lookup. now exists a, b.
Qed.

Lemma visualize_model_edges_exact_witness :
  exists g,
    visualize_model 4 world_after = inr (tt, shown world_after g)
    /\ length (Pydot.edges g)
       = length [relu_set; softmax; relu_set; softmax] - 1
    /\ (forall k a b,
          [relu_set; softmax; relu_set; softmax] !! k = Some a ->
          [relu_set; softmax; relu_set; softmax] !! S k = Some b ->
          Pydot.edges g !! k
          = Some (Pydot.mkEdge (Py.str_nat (Thinc.id a),
                                Py.str_nat (Thinc.id b)) [])).
Proof.
  apply (visualize_model_edges_exact world_after 4
           [relu_set; softmax; relu_set; softmax]).
  exists repeated. split; [reflexivity | repeat constructor].
Defined.

(** X4: the loop leaves the settings of the graph alone.  Whatever the
    pipeline, the graph displayed has the attribute rankdir = LR, the
    node defaults shape = record, fontname = arial, fontsize = 10 and the
    edge default arrowsize = 0.7, and no edge carries an attribute of its
    own. *)
Theorem visualize_model_attributes w model os :
  pipeline w model os ->
  exists g,
    visualize_model model w = inr (tt, shown w g)
    /\ Pydot.graph_attributes g = [("rankdir", "LR")]
    /\ Pydot.node_defaults g
       = [("shape", "record"); ("fontname", "arial"); ("fontsize", "10")]
    /\ Pydot.edge_defaults g = [("arrowsize", "0.7")]
    /\ (forall e, e ∈ Pydot.edges g -> Pydot.edge_attributes e = []).
Proof.
  intros Hp. exists (diagram os).
  split; [now apply visualize_model_run|].
  repeat split.
  intros e (k & a & b & _ & _ & ->)%diagram_edge_elem. reflexivity.
Qed.

Lemma visualize_model_attributes_witness :
  exists g,
    visualize_model 1 world_before = inr (tt, shown world_before g)
    /\ Pydot.graph_attributes g = [("rankdir", "LR")]
    /\ Pydot.node_defaults g
       = [("shape", "record"); ("fontname", "arial"); ("fontsize", "10")]
    /\ Pydot.edge_defaults g = [("arrowsize", "0.7")]
    /\ (forall e, e ∈ Pydot.edges g -> Pydot.edge_attributes e = []).
Proof.
  apply (visualize_model_attributes world_before 1 [relu_unset; softmax]).
  exists chained. split; [reflexivity | repeat constructor].
Defined.

Lemma same_id_names os1 os2 :
  Forall2 same_id os1 os2 ->
  (fun o => Py.str_nat (Thinc.id o)) <$> os1
  = (fun o => Py.str_nat (Thinc.id o)) <$> os2.
Proof.
  induction 1 as [|o1 o2 os1 os2 Ho H IH]; [reflexivity|].
  unfold same_id in Ho. now rewrite !fmap_cons, Ho, IH.
Qed.

Lemma same_id_chain p1 p2 os1 os2 :
  same_id p1 p2 -> Forall2 same_id os1 os2 ->
  chain_edges p1 os1 = chain_edges p2 os2.
Proof.
  intros Hp H. revert p1 p2 Hp.
  induction H as [|o1 o2 os1 os2 Ho H IH]; intros p1 p2 Hp; simpl.
  - reflexivity.
  - rewrite (IH _ _ Ho). unfold edge_of, same_id in *. now rewrite Hp, Ho.
Qed.

(** X5: the shape of the graph is decided by the identifiers alone.  Two
    runs on pipelines whose layers have, position by position, the same
    identifier display graphs with the same node names in the same order
    and the same edges; names and dimensions (as before and after shape
    inference) can change the labels only. *)
Theorem visualize_model_structure w1 w2 model1 model2 os1 os2 :
  pipeline w1 model1 os1 ->
  pipeline w2 model2 os2 ->
  Forall2 same_id os1 os2 ->
  exists g1 g2,
    visualize_model model1 w1 = inr (tt, shown w1 g1)
    /\ visualize_model model2 w2 = inr (tt, shown w2 g2)
    /\ Pydot.node_name <$> Pydot.nodes g1 = Pydot.node_name <$> Pydot.nodes g2
    /\ Pydot.edges g1 = Pydot.edges g2.
Proof.
  intros H1 H2 Hid. exists (diagram os1), (diagram os2).
  split; [now apply visualize_model_run|].
  split; [now apply visualize_model_run|].
  split.
  - rewrite !diagram_node_names. now apply same_id_names.
  - rewrite !diagram_edges.
    destruct Hid as [|o1 o2 os1 os2 Ho Hid]; simpl; [reflexivity|].
    now apply same_id_chain.
Qed.

Lemma visualize_model_structure_witness :
  exists g1 g2,
    visualize_model 1 world_before = inr (tt, shown world_before g1)
    /\ visualize_model 1 world_after = inr (tt, shown world_after g2)
    /\ Pydot.node_name <$> Pydot.nodes g1 = Pydot.node_name <$> Pydot.nodes g2
    /\ Pydot.edges g1 = Pydot.edges g2.
Proof.
  apply (visualize_model_structure world_before world_after 1 1
           [relu_unset; softmax] [relu_set; softmax]).
  - exists chained. split; [reflexivity | repeat constructor].
  - exists chained. split; [reflexivity | repeat constructor].
  - repeat constructor.
Defined.

(** X6: two layers share a node name exactly when they share an
    identifier: layers with different identifiers never fall on one node,
    and a layer used twice gives two statements for one node. *)
Theorem visualize_model_node_names w model os :
  pipeline w model os ->
  exists g,
    visualize_model model w = inr (tt, shown w g)
    /\ forall j k oj ok, os !! j = Some oj -> os !! k = Some ok ->
         exists nj nk,
           Pydot.nodes g !! j = Some nj /\ Pydot.nodes g !! k = Some nk
           /\ (Pydot.node_name nj = Pydot.node_name nk
               <-> Thinc.id oj = Thinc.id ok).
Proof.
  intros Hp. exists (diagram os).
  split; [now apply visualize_model_run|].
  intros j k oj ok Hj Hk. exists (node_of oj), (node_of ok).
  split; [now apply diagram_node_lookup|].
  split; [now apply diagram_node_lookup|].
  simpl. split; [apply str_nat_inj | now intros ->].
Qed.

Lemma visualize_model_node_names_witness :
  exists g,
    visualize_model 4 world_after = inr (tt, shown world_after g)
    /\ forall j k oj ok,
         [relu_set; softmax; relu_set; softmax] !! j = Some oj ->
         [relu_set; softmax; relu_set; softmax] !! k = Some ok ->
         exists nj nk,
           Pydot.nodes g !! j = Some nj /\ Pydot.nodes g !! k = Some nk
           /\ (Pydot.node_name nj = Pydot.node_name nk
               <-> Thinc.id oj = Thinc.id ok).
Proof.
  apply (visualize_model_node_names world_after 4
           [relu_set; softmax; relu_set; softmax]).
  exists repeated. split; [reflexivity | repeat constructor].
Defined.

Lemma diagram_edge_rel os k a b :
  os !! k = Some a -> os !! S k = Some b ->
  edge_rel (diagram os) (Py.str_nat (Thinc.id a)) (Py.str_nat (Thinc.id b)).
Proof.
  intros Ha Hb. exists (edge_of a b). split; [|reflexivity].
  rewrite diagram_edges. apply list_elem_of_lookup. exists k.
  apply edges_of_lookup. now exists a, b.
Qed.

(** X7: the graph is one chain.  Every edge joins two nodes that have a
    statement in the graph, so no edge brings in a node without a label,
    and following the edges leads from the node of the first layer to the
    node of every layer. *)
Theorem visualize_model_chain w model os :
  pipeline w model os ->
  exists g,
    visualize_model model w = inr (tt, shown w g)
    /\ (forall e, e ∈ Pydot.edges g ->
          exists n1 n2, n1 ∈ Pydot.nodes g /\ n2 ∈ Pydot.nodes g
            /\ Pydot.edge_points e = (Pydot.node_name n1, Pydot.node_name n2))
    /\ (forall o0 k o, os !! 0 = Some o0 -> os !! k = Some o ->
          rtc (edge_rel g) (Py.str_nat (Thinc.id o0))
                           (Py.str_nat (Thinc.id o))).
Proof.
  intros Hp. exists (diagram os).
  split; [now apply visualize_model_run|]. split.
  - intros e (k & a & b & Ha & Hb & ->)%diagram_edge_elem.
    exists (node_of a), (node_of b).
    split; [|split; [|reflexivity]].
    + apply list_elem_of_lookup. exists k. now apply diagram_node_lookup.
    + apply list_elem_of_lookup. exists (S k). now apply diagram_node_lookup.
  - intros o0 k. induction k as [|k IH]; intros o H0 Hk.
    + rewrite H0 in Hk. injection Hk as <-. apply rtc_refl.
    + destruct (lookup_lt_is_Some_2 os k) as [a Ha].
      { apply lookup_lt_Some in Hk. lia. }
      eapply rtc_r; [now apply (IH a)|].
      now apply (diagram_edge_rel os k).
Qed.

Lemma visualize_model_chain_witness :
  exists g,
    visualize_model 4 world_after = inr (tt, shown world_after g)
    /\ (forall e, e ∈ Pydot.edges g ->
          exists n1 n2, n1 ∈ Pydot.nodes g /\ n2 ∈ Pydot.nodes g
            /\ Pydot.edge_points e = (Pydot.node_name n1, Pydot.node_name n2))
    /\ (forall o0 k o,
          [relu_set; softmax; relu_set; softmax] !! 0 = Some o0 ->
          [relu_set; softmax; relu_set; softmax] !! k = Some o ->
          rtc (edge_rel g) (Py.str_nat (Thinc.id o0))
                           (Py.str_nat (Thinc.id o))).
Proof.
  apply (visualize_model_chain world_after 4
           [relu_set; softmax; relu_set; softmax]).
  exists repeated. split; [reflexivity | repeat constructor].
Defined.

(** X8: with pairwise distinct identifiers the chain is a simple path.
    No two edges leave the same node and no two enter the same node, no
    edge is a loop, no edge enters the node of the first layer and none
    leaves the node of the last. *)
Theorem visualize_model_simple_path w model os :
  pipeline w model os ->
  NoDup (Thinc.id <$> os) ->
  exists g,
    visualize_model model w = inr (tt, shown w g)
    /\ (forall j k ej ek,
          Pydot.edges g !! j = Some ej -> Pydot.edges g !! k = Some ek ->
          fst (Pydot.edge_points ej) = fst (Pydot.edge_points ek) -> j = k)
    /\ (forall j k ej ek,
          Pydot.edges g !! j = Some ej -> Pydot.edges g !! k = Some ek ->
          snd (Pydot.edge_points ej) = snd (Pydot.edge_points ek) -> j = k)
    /\ (forall e, e ∈ Pydot.edges g ->
          fst (Pydot.edge_points e) <> snd (Pydot.edge_points e))
    /\ (forall o0 e, os !! 0 = Some o0 -> e ∈ Pydot.edges g ->
          snd (Pydot.edge_points e) <> Py.str_nat (Thinc.id o0))
    /\ (forall ol e, last os = Some ol -> e ∈ Pydot.edges g ->
          fst (Pydot.edge_points e) <> Py.str_nat (Thinc.id ol)).
Proof.
  intros Hp Hnd. exists (diagram os).
  split; [now apply visualize_model_run|].
  rewrite diagram_edges. repeat split.
  - intros j k ej ek (a & b & Ha & _ & ->)%edges_of_lookup
      (a' & b' & Ha' & _ & ->)%edges_of_lookup E.
    exact (ids_lookup_inj os j k a a' Hnd Ha Ha' E).
  - intros j k ej ek (a & b & _ & Hb & ->)%edges_of_lookup
      (a' & b' & _ & Hb' & ->)%edges_of_lookup E.
    pose proof (ids_lookup_inj os (S j) (S k) b b' Hnd Hb Hb' E). lia.
  - intros e [k (a & b & Ha & Hb & ->)%edges_of_lookup]%list_elem_of_lookup E.
    pose proof (ids_lookup_inj os k (S k) a b Hnd Ha Hb E). lia.
  - intros o0 e H0
      [k (a & b & Ha & Hb & ->)%edges_of_lookup]%list_elem_of_lookup E.
    pose proof (ids_lookup_inj os (S k) 0 b o0 Hnd Hb H0 E). lia.
  - intros ol e Hl
      [k (a & b & Ha & Hb & ->)%edges_of_lookup]%list_elem_of_lookup E.
    rewrite last_lookup in Hl.
    pose proof (ids_lookup_inj os k _ a ol Hnd Ha Hl E).
    apply lookup_lt_Some in Hb. lia.
Qed.

Lemma visualize_model_simple_path_witness :
  exists g,
    visualize_model 1 world_after = inr (tt, shown world_after g)
    /\ (forall j k ej ek,
          Pydot.edges g !! j = Some ej -> Pydot.edges g !! k = Some ek ->
          fst (Pydot.edge_points ej) = fst (Pydot.edge_points ek) -> j = k)
    /\ (forall j k ej ek,
          Pydot.edges g !! j = Some ej -> Pydot.edges g !! k = Some ek ->
          snd (Pydot.edge_points ej) = snd (Pydot.edge_points ek) -> j = k)
    /\ (forall e, e ∈ Pydot.edges g ->
          fst (Pydot.edge_points e) <> snd (Pydot.edge_points e))
    /\ (forall o0 e, [relu_set; softmax] !! 0 = Some o0 ->
          e ∈ Pydot.edges g ->
          snd (Pydot.edge_points e) <> Py.str_nat (Thinc.id o0))
    /\ (forall ol e, last [relu_set; softmax] = Some ol ->
          e ∈ Pydot.edges g ->
          fst (Pydot.edge_points e) <> Py.str_nat (Thinc.id ol)).
Proof.
  apply (visualize_model_simple_path world_after 1 [relu_set; softmax]).
  - exists chained. split; [reflexivity | repeat constructor].
  - apply (bool_decide_unpack _). reflexivity.
Defined.

(** X9: an edge is a loop exactly where two consecutive layers have the
    same identifier: a layer put twice in a row is drawn with an arrow to
    itself. *)
Theorem visualize_model_loops w model os :
  pipeline w model os ->
  exists g,
    visualize_model model w = inr (tt, shown w g)
    /\ forall k a b, os !! k = Some a -> os !! S k = Some b ->
         exists e, Pydot.edges g !! k = Some e
           /\ (fst (Pydot.edge_points e) = snd (Pydot.edge_points e)
               <-> Thinc.id a = Thinc.id b).
Proof.
  intros Hp. exists (diagram os).
  split; [now apply visualize_model_run|].
  intros k a b Ha Hb. exists (edge_of a b). split.
  - rewrite diagram_edges. apply edges_of_lookup. now exists a, b.
  - simpl. split; [apply str_nat_inj | now intros ->].
Qed.

Lemma visualize_model_loops_witness :
  exists g,
    visualize_model 1 world_doubled = inr (tt, shown world_doubled g)
    /\ forall k a b, [relu_set; relu_set] !! k = Some a ->
         [relu_set; relu_set] !! S k = Some b ->
         exists e, Pydot.edges g !! k = Some e
           /\ (fst (Pydot.edge_points e) = snd (Pydot.edge_points e)
               <-> Thinc.id a = Thinc.id b).
Proof.
  apply (visualize_model_loops world_doubled 1 [relu_set; relu_set]).
  exists doubled. split; [reflexivity | repeat constructor].
Defined.

(** ** Reading the dimensions off a label *)

Lemma str_int_inj z1 z2 : Py.str_int z1 = Py.str_int z2 -> z1 = z2.
Proof.
  unfold Py.str_int. intros H. apply to_int_inj.
  assert (Some (Z.to_int z1) = Some (Z.to_int z2)) as [= ->]; [|reflexivity].
  rewrite <- !NilEmpty.isi. congruence.
Qed.

(** Two strings cut at a character that neither holds before the cut. *)
Lemma append_cut c s1 s2 r1 r2 :
  occurs c s1 = false -> occurs c s2 = false ->
  s1 +:+ String c r1 = s2 +:+ String c r2 -> s1 = s2 /\ r1 = r2.
Proof.
  revert s2. induction s1 as [|a s1 IH]; intros [|b s2]; simpl.
  - intros _ _ [= ->]. split; reflexivity.
  - intros _ H [= ->]. rewrite Ascii.eqb_refl in H. discriminate.
  - intros H _ [= ->]. rewrite Ascii.eqb_refl in H. discriminate.
  - intros [_ H1]%orb_false_elim [_ H2]%orb_false_elim [= -> E].
    destruct (IH s2 H1 H2 E) as [-> ->]. split; reflexivity.
Qed.

Lemma format_dim_value_occurs c o dim :
  is_digit c = false -> c <> "-"%char -> c <> "?"%char ->
  occurs c (Py.format (dim_value o dim)) = false.
Proof.
  intros Hd Hm Hq.
  assert (occurs c "?" = false) as Hp.
  { rewrite occurs_cons.
    destruct (Ascii.eqb_spec "?"%char c); [congruence | reflexivity]. }
  unfold dim_value.
  destruct (Thinc.dims o !! dim) as [[u|]|];
    [now apply str_int_occurs | exact Hp..].
Qed.

Lemma str_int_not_placeholder z : Py.str_int z <> "?".
Proof.
  intros E.
  assert (occurs "?" (Py.str_int z) = false) as H
    by (apply str_int_occurs; [reflexivity | discriminate]).
  rewrite E in H. vm_compute in H. discriminate H.
Qed.

Lemma format_dim_value_inj o1 o2 dim :
  Py.format (dim_value o1 dim) = Py.format (dim_value o2 dim) ->
  dim_value o1 dim = dim_value o2 dim.
Proof.
  unfold dim_value.
  destruct (Thinc.dims o1 !! dim) as [[u1|]|],
           (Thinc.dims o2 !! dim) as [[u2|]|]; cbn [Py.format];
    intros E; try reflexivity.
  - now apply str_int_inj in E as ->.
  - now apply str_int_not_placeholder in E.
  - now apply str_int_not_placeholder in E.
  - symmetry in E. now apply str_int_not_placeholder in E.
  - symmetry in E. now apply str_int_not_placeholder in E.
Qed.

Lemma dim_value_get_dim_iff o1 o2 dim :
  dim_value o1 dim = dim_value o2 dim ->
  forall v, Thinc.get_dim o1 dim = inr v <-> Thinc.get_dim o2 dim = inr v.
Proof.
  unfold dim_value, Thinc.get_dim.
  destruct (Thinc.dims o1 !! dim) as [[u1|]|],
           (Thinc.dims o2 !! dim) as [[u2|]|];
    intros E v; try discriminate; try (split; discriminate).
  injection E as ->. reflexivity.
Qed.

(** X10: the label shows the state of the dimensions without loss.  If
    two layers with the same name get the same label, then each of nO and
    nI is known for both or for neither, and with the same value:
    [get_dim] returns a value for the one exactly when it returns that
    value for the other. *)
Theorem get_label_shows_dimensions w1 w2 a1 a2 o1 o2 lbl :
  heap w1 !! a1 = Some o1 ->
  heap w2 !! a2 = Some o2 ->
  Thinc.name o1 = Thinc.name o2 ->
  get_label a1 w1 = inr (lbl, w1) ->
  get_label a2 w2 = inr (lbl, w2) ->
  (forall v, Thinc.get_dim o1 "nO" = inr v <-> Thinc.get_dim o2 "nO" = inr v)
  /\ (forall v, Thinc.get_dim o1 "nI" = inr v <-> Thinc.get_dim o2 "nI" = inr v).
Proof.
  intros H1 H2 Hname L1 L2.
  rewrite (get_label_run _ _ _ H1) in L1.
  rewrite (get_label_run _ _ _ H2) in L2.
  assert (label_of o1 = label_of o2) as E by congruence.
  rewrite !label_of_split, Hname in E.
  apply String.app_inj in E.
  apply (String.app_inj "|(") in E.
  apply append_cut in E as [EO E];
    try (now apply format_dim_value_occurs).
  apply (String.app_inj " ") in E.
  apply append_cut in E as [EI _];
    try (now apply format_dim_value_occurs).
  split; apply dim_value_get_dim_iff; now apply format_dim_value_inj.
Qed.

Lemma get_label_shows_dimensions_witness :
  (forall v, Thinc.get_dim relu_set "nO" = inr v
             <-> Thinc.get_dim relu_wide "nO" = inr v)
  /\ (forall v, Thinc.get_dim relu_set "nI" = inr v
                <-> Thinc.get_dim relu_wide "nI" = inr v).
Proof.
  apply (get_label_shows_dimensions world_after world_other 2 8
           relu_set relu_wide "relu|(32, 16)"); reflexivity.
Defined.
